(** * Speech-to-text HTTP service ([src/stt/main.py]): shallow embedding

    The module is a thin FastAPI front-end over a [faster_whisper] model.
    The embedding follows the file top to bottom:

    - [Py]      : the pieces of the Python runtime the module relies on
                  ([str] as code points, [str.strip], [str.join], [bytes],
                  [os.getenv]);
    - [Whisper] : the interface of the external recognition engine
                  ([WhisperModel], its [transcribe] method, the lazily
                  produced segments);
    - [Http]    : JSON values, responses and the [HTTPException] raised by
                  handlers;
    - [Stt]     : the module itself: the top-level configuration, the two
                  route handlers and the way the framework turns handler
                  outcomes into responses. *)

From Stdlib Require Import ZArith NArith Lia.
From Stdlib Require Import Strings.Byte.
From stdpp Require Import base option list gmap strings.

Local Open Scope Z_scope.

(** ** Python runtime *)

Module Py.

(** A Python [str] is a sequence of Unicode code points. *)
Definition str : Type := list N.

(** A [bytes] object. *)
Definition bytes : Type := list byte.

(** String literals of the source, written as Rocq strings. *)
Definition lit (s : string) : str :=
  List.map Ascii.N_of_ascii (String.list_ascii_of_string s).

(** [len(x)] (Python integers are unbounded). *)
Definition len {A : Type} (x : list A) : Z := Z.of_nat (length x).

(** Truth value of a sequence: empty sequences are falsy. *)
Definition truthy {A : Type} (x : list A) : bool :=
  match x with
  | [] => false
  | _ :: _ => true
  end.

(** [str.isspace] on one code point: the characters CPython's
    [Py_UNICODE_ISSPACE] accepts (bidirectional type WS, B or S, or
    category Zs). *)
Definition isspace (c : N) : bool :=
  (((0x09 <=? c) && (c <=? 0x0D))
   || ((0x1C <=? c) && (c <=? 0x20))
   || (c =? 0x85) || (c =? 0xA0) || (c =? 0x1680)
   || ((0x2000 <=? c) && (c <=? 0x200A))
   || (c =? 0x2028) || (c =? 0x2029) || (c =? 0x202F)
   || (c =? 0x205F) || (c =? 0x3000))%N.

(** A string made of whitespace only. *)
Abbreviation blank := (Forall (fun c : N => isspace c = true)).

(** [s.lstrip()]: drop the leading whitespace. *)
Fixpoint lstrip (s : str) : str :=
  match s with
  | [] => []
  | c :: r => if isspace c then lstrip r else s
  end.

(** [s.rstrip()]: drop the trailing whitespace. *)
Definition rstrip (s : str) : str := reverse (lstrip (reverse s)).

(** [s.strip()]: the slice between the first and the last character that
    is not whitespace. *)
Definition strip (s : str) : str := rstrip (lstrip s).

(** [sep.join(parts)]: the parts in order with [sep] between consecutive
    ones. *)
Fixpoint join (sep : str) (parts : list str) : str :=
  match parts with
  | [] => []
  | [p] => p
  | p :: rest => p ++ sep ++ join sep rest
  end.

(** Whether [s.encode("utf-8")] succeeds: every code point is a Unicode
    scalar value.  A lone surrogate (0xD800 to 0xDFFF) makes it raise
    [UnicodeEncodeError]; such code points occur in real strings, for
    instance in an environment value that is not valid UTF-8. *)
Definition encodable (s : str) : bool :=
  forallb (fun c : N => (c <? 0xD800) || ((0xDFFF <? c) && (c <=? 0x10FFFF)))%N s.

(** The process environment, [os.environ]. *)
Abbreviation environ := (gmap str str).

(** [os.getenv(key, default)]. *)
Definition getenv (env : environ) (key default : str) : str :=
  match env !! key with
  | Some v => v
  | None => default
  end.

(** Instances of [Exception]: what library code raises and what an
    [except Exception] clause catches.  An exception carries its class
    name and its message. *)
Record Exception : Type := mkException {
  exc_class : str;
  exc_message : str
}.

(** The outcome of evaluating Python code that may raise. *)
Inductive result (E A : Type) : Type :=
| Return (a : A)
| Raise (e : E).
Arguments Return {E A} a.
Arguments Raise {E A} e.

End Py.

(** ** The recognition engine ([faster_whisper]) *)

Module Whisper.
Import Py.

(** A recognised segment; the service reads its [text] only. *)
Record Segment : Type := mkSegment { text : str }.

(** The [info] object returned next to the segments; the service reads
    its [language] only. *)
Record TranscriptionInfo : Type := mkInfo { language : str }.

(** The [segments] object is a generator: recognition runs while it is
    iterated, so each step either yields a segment, ends, or raises. *)
Inductive Segments : Type :=
| Yield (seg : Segment) (rest : Segments)
| Stop
| Fail (e : Exception).

(** A generator that yields the given segments in order and then ends. *)
Fixpoint yields (segs : list Segment) : Segments :=
  match segs with
  | [] => Stop
  | seg :: rest => Yield seg (yields rest)
  end.

(** A generator that yields the given segments and then raises. *)
Fixpoint yields_then_fails (segs : list Segment) (e : Exception) : Segments :=
  match segs with
  | [] => Fail e
  | seg :: rest => Yield seg (yields_then_fails rest e)
  end.

(** The list comprehension [[f(seg) for seg in segments]]. *)
Fixpoint comprehension {A : Type} (f : Segment -> A) (segments : Segments)
  : result Exception (list A) :=
  match segments with
  | Stop => Return []
  | Fail e => Raise e
  | Yield seg rest =>
      match comprehension f rest with
      | Return l => Return (f seg :: l)
      | Raise e => Raise e
      end
  end.

(** One invocation [self.transcribe(audio, beam_size=.., vad_filter=..,
    language=..)]; [audio] is the content of the file-like object handed
    over. *)
Inductive Call (W : Type) : Type :=
| Transcribe (self : W) (audio : bytes) (beam_size : Z) (vad_filter : bool)
    (language : option str).
Arguments Transcribe {W} self audio beam_size vad_filter language.

(** The engine is an external collaborator.  Loading a model may fail;
    what a call returns may depend on the calls made before it. *)
Class Engine : Type := {
  WhisperModel : Type;
  WhisperModel_init : str -> str -> str -> result Exception WhisperModel;
  WhisperModel_transcribe :
    list (Call WhisperModel) -> Call WhisperModel ->
    result Exception (Segments * TranscriptionInfo)
}.

(** The two ways a recognition fails with exception [e]: the call itself
    raises, or the iteration over the segments does. *)
Inductive fails_with (e : Exception)
  : result Exception (Segments * TranscriptionInfo) -> Prop :=
| fails_at_call : fails_with e (Raise e)
| fails_in_iteration (segs : list Segment) (info : TranscriptionInfo) :
    fails_with e (Return (yields_then_fails segs e, info)).

End Whisper.

(** ** HTTP values *)

Module Http.
Import Py.

(** The JSON documents of this service are flat objects: a Python [dict]
    with [str] keys (kept in insertion order) whose values are booleans
    or strings. *)
Inductive json_value : Type :=
| JBool (b : bool)
| JStr (s : str).

Definition json : Type := list (str * json_value).

(** A response body: a JSON document, the framework's report of
    request fields that failed validation (one location per error), or
    plain text. *)
Inductive Body : Type :=
| Json (j : json)
| ValidationErrors (locs : list (list str))
| Text (s : str).

Record Response : Type := mkResponse {
  status_code : Z;
  body : Body
}.

(** Whether a document can be rendered: the body is serialised and
    encoded as UTF-8, which needs every string in it to be encodable. *)
Definition renderable (content : json) : bool :=
  forallb (fun member : str * json_value =>
             encodable member.1
             && match member.2 with
                | JBool _ => true
                | JStr s => encodable s
                end) content.

(** [JSONResponse(content, status_code=status)]: the body is rendered
    when the response is constructed, so the constructor raises on a
    document that cannot be encoded. *)
Definition JSONResponse_with (status : Z) (content : json)
  : result Exception Response :=
  if renderable content
  then Return {| status_code := status; body := Json content |}
  else Raise (mkException (lit "UnicodeEncodeError") (lit "surrogates not allowed")).

(** [JSONResponse(content)]: status 200. *)
Definition JSONResponse (content : json) : result Exception Response :=
  JSONResponse_with 200 content.

(** [HTTPException(status_code=.., detail=..)]; [cause] is the exception
    chained with [raise ... from exc]. *)
Inductive HTTPException : Type :=
| mkHTTPException (status_code : Z) (detail : str) (cause : option Exception).

(** The framework's handler for [HTTPException]: status and detail go to
    the client in a [JSONResponse], nothing else does. *)
Definition http_exception_handler (e : HTTPException) : result Exception Response :=
  match e with
  | mkHTTPException status detail _ =>
      JSONResponse_with status [(lit "detail", JStr detail)]
  end.

(** The framework's answer when an exception escapes request handling. *)
Definition internal_server_error : Response :=
  {| status_code := 500; body := Text (lit "Internal Server Error") |}.

(** The framework's answer to a request whose required fields are
    missing. *)
Definition request_validation_error (locs : list (list str)) : Response :=
  {| status_code := 422; body := ValidationErrors locs |}.

(** An uploaded file; [read] returns its whole content. *)
Record UploadFile : Type := mkUploadFile { read : bytes }.

End Http.

(** ** The service module *)

Module Stt.
Import Py Whisper Http.

(** *** Top-level configuration

    The assignments at the top of the module, as functions of the process
    environment the module is imported in. *)

Definition WHISPER_MODEL (env : environ) : str :=
  getenv env (lit "WHISPER_MODEL") (lit "base").

Definition COMPUTE (env : environ) : str :=
  getenv env (lit "WHISPER_COMPUTE") (lit "auto").

Definition device (env : environ) : str :=
  if decide (COMPUTE env = lit "cuda") then lit "cuda" else lit "auto".

Definition compute_type (env : environ) : str :=
  if decide (device env = lit "cuda") then lit "float16" else lit "int8".

Section Service.
Context {engine : Engine}.

Definition model (env : environ) : result Exception WhisperModel :=
  WhisperModel_init (WHISPER_MODEL env) (device env) (compute_type env).

(** The module's global namespace once the import has finished. *)
Record Globals : Type := mkGlobals {
  g_WHISPER_MODEL : str;
  g_COMPUTE : str;
  g_device : str;
  g_compute_type : str;
  g_model : WhisperModel
}.

(** Importing the module: the assignments run in order; a model that
    fails to load aborts the import. *)
Definition import_module (env : environ) : result Exception Globals :=
  match model env with
  | Raise e => Raise e
  | Return m =>
      Return {| g_WHISPER_MODEL := WHISPER_MODEL env;
                g_COMPUTE := COMPUTE env;
                g_device := device env;
                g_compute_type := compute_type env;
                g_model := m |}
  end.

(** *** Request handling

    What a running process consists of: the module globals shared by all
    requests, and the calls the engine has received so far. *)
Record World : Type := mkWorld {
  globals : Globals;
  calls : list (Call WhisperModel)
}.

(** Handler code: it reads and may change the world, and returns or
    raises. *)
Definition M (E A : Type) : Type := World -> result E A * World.

#[export] Instance M_ret {E} : MRet (M E) :=
  fun A a w => (Return a, w).

#[export] Instance M_bind {E} : MBind (M E) :=
  fun A B f m w =>
    match m w with
    | (Return a, w') => f a w'
    | (Raise e, w') => (Raise e, w')
    end.

Definition raise {E A} (e : E) : M E A :=
  fun w => (Raise e, w).

(** [try: body / except Exception as exc: handler(exc)]. *)
Definition try_except {E E' A} (body : M E A) (handler : E -> M E' A) : M E' A :=
  fun w =>
    match body w with
    | (Return a, w') => (Return a, w')
    | (Raise e, w') => handler e w'
    end.

(** Reading a module global. *)
Definition global {E A} (f : Globals -> A) : M E A :=
  fun w => (Return (f (globals w)), w).

(** Running code that does not touch the world. *)
Definition pure {E A} (r : result E A) : M E A :=
  fun w => (r, w).

(** Calling the engine: the call is answered by the engine and recorded. *)
Definition transcribe_call (self : WhisperModel) (audio : bytes) (beam_size : Z)
    (vad_filter : bool) (language : option str)
  : M Exception (Segments * TranscriptionInfo) :=
  fun w =>
    let c := Transcribe self audio beam_size vad_filter language in
    (WhisperModel_transcribe (calls w) c,
     {| globals := globals w; calls := calls w ++ [c] |}).

(** [io.BytesIO(data)]: a file-like view of the same bytes. *)
Definition BytesIO (data : bytes) : bytes := data.

(** [POST /transcribe]. *)
Definition transcribe (audio : UploadFile) : M HTTPException Response :=
  let data := read audio in
  if negb (truthy data) || (len data <? 1500) then
    raise (mkHTTPException 400 (lit "audio too short") None)
  else
    try_except
      (m ← global g_model;
       '(segments, info) ← transcribe_call m (BytesIO data) 1 true (Some (lit "en"));
       parts ← pure (comprehension text segments);
       let text := strip (join (lit "") parts) in
       pure (JSONResponse [(lit "text", JStr text);
                           (lit "language", JStr (language info))]))
      (fun exc => raise (mkHTTPException 422 (lit "transcription failed") (Some exc))).

(** [GET /health]. *)
Definition health : M HTTPException json :=
  m ← global g_WHISPER_MODEL;
  d ← global g_device;
  mret [(lit "ok", JBool true); (lit "model", JStr m); (lit "device", JStr d)].

(** *** The application

    A request to one of the two routes; the [audio] form field of an
    upload is present or not. *)
Inductive Request : Type :=
| POST_transcribe (audio : option UploadFile)
| GET_health.

(** What the framework sends for a handler's outcome: the value returned
    is turned into a response, an [HTTPException] goes through its
    handler, and an exception raised on the way is an internal error. *)
Definition respond {A} (to_response : A -> result Exception Response)
    (r : result HTTPException A) : Response :=
  let built :=
    match r with
    | Return a => to_response a
    | Raise e => http_exception_handler e
    end in
  match built with
  | Return resp => resp
  | Raise _ => internal_server_error
  end.

(** Routing.  [audio: UploadFile = File(...)] declares a required field:
    without it the handler is not run and the framework answers with a
    validation error.  A response returned by a handler is sent as it is;
    the dict returned by [health] is put in a [JSONResponse]. *)
Definition app (req : Request) (w : World) : Response * World :=
  match req with
  | POST_transcribe None =>
      (request_validation_error [[lit "body"; lit "audio"]], w)
  | POST_transcribe (Some audio) =>
      let '(r, w') := transcribe audio w in (respond Return r, w')
  | GET_health =>
      let '(r, w') := health w in (respond JSONResponse r, w')
  end.

(** Serving requests one after the other. *)
Fixpoint serve (reqs : list Request) (w : World) : list Response * World :=
  match reqs with
  | [] => ([], w)
  | req :: rest =>
      let '(resp, w') := app req w in
      let '(resps, w'') := serve rest w' in
      (resp :: resps, w'')
  end.

(** The world a freshly started process begins with. *)
Definition start (env : environ) : result Exception World :=
  match import_module env with
  | Raise e => Raise e
  | Return g => Return {| globals := g; calls := [] |}
  end.

End Service.
End Stt.

(** ** A small engine to run the service on

    It loads every model except the size ["missing"], remembers how it was
    constructed, and answers by the first byte of the audio: [0x00] is
    rejected at the call, [0x01] fails after one segment, anything else is
    recognised as two segments. *)

Module Demo.
Import Py Whisper Http Stt.

Definition decode (audio : bytes) : result Exception (Segments * TranscriptionInfo) :=
  match audio with
  | x00 :: _ =>
      Raise (mkException (lit "InvalidDataError") (lit "invalid data found"))
  | x01 :: _ =>
      Return (yields_then_fails [mkSegment (lit " half")]
                (mkException (lit "RuntimeError") (lit "decoder state lost")),
              mkInfo (lit "en"))
  | _ =>
      Return (yields [mkSegment (lit " Hello,"); mkSegment (lit " world. ")],
              mkInfo (lit "en"))
  end.

Definition engine : Engine := {|
  WhisperModel := str * str * str;
  WhisperModel_init size dev ctype :=
    if decide (size = lit "missing")
    then Raise (mkException (lit "ValueError") (lit "invalid model size"))
    else Return (size, dev, ctype);
  WhisperModel_transcribe _ c :=
    match c with
    | Transcribe _ audio _ _ _ => decode audio
    end
|}.

#[local] Existing Instance engine.

(** An environment that asks for the accelerator. *)
Definition env_cuda : environ :=
  <[lit "WHISPER_COMPUTE" := lit "cuda"]> (<[lit "WHISPER_MODEL" := lit "small"]> ∅).

(** An environment that names a compute mode other than ["cuda"]. *)
Definition env_cpu : environ :=
  <[lit "WHISPER_COMPUTE" := lit "cpu"]> ∅.

(** The world of a process started in an empty environment. *)
Definition world0 : World :=
  {| globals := {| g_WHISPER_MODEL := lit "base";
                   g_COMPUTE := lit "auto";
                   g_device := lit "auto";
                   g_compute_type := lit "int8";
                   g_model := (lit "base", lit "auto", lit "int8") |};
     calls := [] |}.

(** Uploads of 1500 bytes starting with the given byte, and a short one. *)
Definition clip (first : byte) : bytes := first :: repeat x20 1499.
Definition short_clip : bytes := repeat x20 1499.

End Demo.

(** ** Sequences of requests

    What a sequence of requests means for the engine: which of them reach
    it, and with which call. *)

Module Traffic.
Import Py Whisper Http Stt.

Section Traffic.
Context {engine : Engine}.

(** A request that is answered without the engine: a health check, an
    upload without its [audio] field, an upload under the size floor. *)
Definition inert (req : Request) : bool :=
  match req with
  | GET_health => true
  | POST_transcribe None => true
  | POST_transcribe (Some audio) => len (read audio) <? 1500
  end.

(** The calls the requests make on the model instance [m], in order. *)
Fixpoint engine_calls (m : WhisperModel) (reqs : list Request)
  : list (Call WhisperModel) :=
  match reqs with
  | [] => []
  | req :: rest =>
      match req with
      | POST_transcribe (Some audio) =>
          if len (read audio) <? 1500 then engine_calls m rest
          else Transcribe m (read audio) 1 true (Some (lit "en"))
                 :: engine_calls m rest
      | _ => engine_calls m rest
      end
  end.

(** An engine whose answer to a call does not depend on earlier calls. *)
Definition history_free : Prop :=
  forall (h h' : list (Call WhisperModel)) (c : Call WhisperModel),
    WhisperModel_transcribe h c = WhisperModel_transcribe h' c.

End Traffic.
End Traffic.

(** ** An engine that hears nothing

    It loads every model and recognises only whitespace, whatever the
    audio: one segment of spaces and an empty one. *)

Module Quiet.
Import Py Whisper Http Stt.

Definition engine : Engine := {|
  WhisperModel := unit;
  WhisperModel_init _ _ _ := Return tt;
  WhisperModel_transcribe _ _ :=
    Return (yields [mkSegment (lit "  "); mkSegment (lit "")], mkInfo (lit "en"))
|}.

#[local] Existing Instance engine.

Definition world0 : World :=
  {| globals := {| g_WHISPER_MODEL := lit "base";
                   g_COMPUTE := lit "auto";
                   g_device := lit "auto";
                   g_compute_type := lit "int8";
                   g_model := tt |};
     calls := [] |}.

End Quiet.

(** ** Strings that cannot be encoded

    An engine that reports a text holding a lone surrogate, and an
    environment whose model name is not valid UTF-8 (the byte 0xFF is read
    from the environment as the code point 0xDCFF). *)

Module Garbled.
Import Py Whisper Http Stt.

Definition engine : Engine := {|
  WhisperModel := unit;
  WhisperModel_init _ _ _ := Return tt;
  WhisperModel_transcribe _ _ :=
    Return (yields [mkSegment [0xD800%N]], mkInfo (lit "en"))
|}.

#[local] Existing Instance engine.

Definition world0 : World :=
  {| globals := {| g_WHISPER_MODEL := lit "base";
                   g_COMPUTE := lit "auto";
                   g_device := lit "auto";
                   g_compute_type := lit "int8";
                   g_model := tt |};
     calls := [] |}.

Definition env : environ := <[lit "WHISPER_MODEL" := [0xDCFF%N]]> ∅.

End Garbled.

(** * Properties *)

Import Py Whisper Http Stt.

(** ** Python runtime facts *)

Example lit_cuda : lit "cuda" = [99; 117; 100; 97]%N.
Proof. reflexivity. Qed.

Example strip_example :
  strip (lit " Hello, world. ") = lit "Hello, world.".
Proof. reflexivity. Qed.

Example join_example :
  join (lit ", ") [lit "a"; lit "b"; lit "c"] = lit "a, b, c".
Proof. reflexivity. Qed.

Example start_demo :
  start (engine := Demo.engine) ∅ = Return Demo.world0.
Proof. vm_compute. reflexivity. Qed.

Example start_demo_cuda :
  match start (engine := Demo.engine) Demo.env_cuda with
  | Return w => g_device (globals w) = lit "cuda" /\ g_compute_type (globals w) = lit "float16"
  | Raise _ => False
  end.
Proof. vm_compute. split; reflexivity. Qed.

Example post_demo :
  (app (POST_transcribe (Some (mkUploadFile (Demo.clip x52)))) Demo.world0).1
  = {| status_code := 200;
       body := Json [(lit "text", JStr (lit "Hello, world."));
                     (lit "language", JStr (lit "en"))] |}.
Proof. vm_compute. reflexivity. Qed.

Lemma lstrip_split (s : str) :
  exists pre, s = pre ++ lstrip s /\ blank pre.
Proof.
  induction s as [|c r IH]; simpl.
  - exists []. split; [reflexivity | constructor].
  - destruct (isspace c) eqn:Hc.
    + destruct IH as (pre & Hr & Hpre).
      exists (c :: pre). split.
      * simpl. f_equal. exact Hr.
      * constructor; assumption.
    + exists []. split; [reflexivity | constructor].
Qed.

Lemma lstrip_head (s : str) (c : N) :
  head (lstrip s) = Some c -> isspace c = false.
Proof.
  induction s as [|d r IH]; simpl; [discriminate|].
  destruct (isspace d) eqn:Hd; [exact IH|].
  simpl. intros [= <-]. exact Hd.
Qed.

Lemma rstrip_split (s : str) :
  exists suf, s = rstrip s ++ suf /\ blank suf.
Proof.
  unfold rstrip.
  destruct (lstrip_split (reverse s)) as (pre & Hs & Hpre).
  exists (reverse pre). split.
  - rewrite <- reverse_app, <- Hs. symmetry. apply reverse_involutive.
  - apply Forall_reverse. exact Hpre.
Qed.

Lemma rstrip_last (s : str) (c : N) :
  last (rstrip s) = Some c -> isspace c = false.
Proof.
  unfold rstrip. rewrite last_reverse. apply lstrip_head.
Qed.

Lemma rstrip_head (s : str) (c : N) :
  head (rstrip s) = Some c -> head s = Some c.
Proof.
  destruct (rstrip_split s) as (suf & Hs & _).
  destruct (rstrip s) as [|d r] eqn:Hr; simpl; [discriminate|].
  intros [= <-]. rewrite Hs. reflexivity.
Qed.

(** [strip] removes a blank prefix and a blank suffix, and nothing more
    can be removed at either end. *)
Lemma strip_spec (s : str) :
  exists pre suf,
    s = pre ++ strip s ++ suf /\ blank pre /\ blank suf
    /\ (forall c, head (strip s) = Some c -> isspace c = false)
    /\ (forall c, last (strip s) = Some c -> isspace c = false).
Proof.
  unfold strip.
  destruct (lstrip_split s) as (pre & Hs & Hpre).
  destruct (rstrip_split (lstrip s)) as (suf & Ht & Hsuf).
  exists pre, suf. repeat split; try assumption.
  - rewrite <- Ht. exact Hs.
  - intros c Hc. apply (lstrip_head s). apply rstrip_head. exact Hc.
  - intros c. apply rstrip_last.
Qed.

(** Joining on the empty string puts nothing between the parts. *)
Lemma join_empty (parts : list str) : join (lit "") parts = concat parts.
Proof.
  induction parts as [|p rest IH]; [reflexivity|].
  destruct rest as [|q rest].
  - simpl. symmetry. apply app_nil_r.
  - change (join (lit "") (p :: q :: rest)) with (p ++ join (lit "") (q :: rest)).
    rewrite IH. reflexivity.
Qed.

(** ** The segments generator *)

Lemma comprehension_yields {A} (f : Segment -> A) (segs : list Segment) :
  comprehension f (yields segs) = Return (map f segs).
Proof.
  induction segs as [|seg rest IH]; simpl; [reflexivity|].
  rewrite IH. reflexivity.
Qed.

Lemma comprehension_fails {A} (f : Segment -> A) (segs : list Segment) (e : Exception) :
  comprehension f (yields_then_fails segs e) = Raise e.
Proof.
  induction segs as [|seg rest IH]; simpl; [reflexivity|].
  rewrite IH. reflexivity.
Qed.

(** Every generator either runs to its end or raises after finitely many
    segments. *)
Lemma segments_cases (g : Segments) :
  (exists segs, g = yields segs) \/ (exists segs e, g = yields_then_fails segs e).
Proof.
  induction g as [seg rest [(segs & ->)|(segs & e & ->)] | | e].
  - left. exists (seg :: segs). reflexivity.
  - right. exists (seg :: segs), e. reflexivity.
  - left. exists []. reflexivity.
  - right. exists [], e. reflexivity.
Qed.

(** ** The handlers *)

Section Properties.
Context {engine : Engine}.

(** The size test of [transcribe] is exactly "fewer than 1500 bytes". *)
Lemma size_check (data : bytes) :
  negb (truthy data) || (len data <? 1500) = true <-> len data < 1500.
Proof.
  unfold len. destruct data as [|b r]; simpl negb; simpl orb.
  - simpl. split; [lia | reflexivity].
  - apply Z.ltb_lt.
Qed.

Lemma transcribe_short (audio : UploadFile) (w : World) :
  len (read audio) < 1500 ->
  transcribe audio w = (Raise (mkHTTPException 400 (lit "audio too short") None), w).
Proof.
  intros Hlen. apply size_check in Hlen.
  unfold transcribe. rewrite Hlen. reflexivity.
Qed.

(** Past the size test the handler is its [try] statement: one call to
    the engine, then the assembly of the answer. *)
Lemma transcribe_long (audio : UploadFile) (w : World) :
  1500 <= len (read audio) ->
  transcribe audio w =
  let c := Transcribe (g_model (globals w)) (read audio) 1 true (Some (lit "en")) in
  let w' := {| globals := globals w; calls := calls w ++ [c] |} in
  match WhisperModel_transcribe (calls w) c with
  | Raise exc =>
      (Raise (mkHTTPException 422 (lit "transcription failed") (Some exc)), w')
  | Return (segments, info) =>
      match comprehension text segments with
      | Raise exc =>
          (Raise (mkHTTPException 422 (lit "transcription failed") (Some exc)), w')
      | Return parts =>
          match JSONResponse [(lit "text", JStr (strip (join (lit "") parts)));
                              (lit "language", JStr (language info))] with
          | Raise exc =>
              (Raise (mkHTTPException 422 (lit "transcription failed") (Some exc)), w')
          | Return resp => (Return resp, w')
          end
      end
  end.
Proof.
  intros Hlen.
  assert (Hc : negb (truthy (read audio)) || (len (read audio) <? 1500) = false).
  { apply not_true_is_false. rewrite size_check. lia. }
  unfold transcribe. rewrite Hc.
  unfold try_except, mbind, M_bind, global, transcribe_call, pure, mret, M_ret,
    raise, BytesIO.
  cbn beta iota zeta.
  destruct (WhisperModel_transcribe _ _) as [[segments info]|exc]; [|reflexivity].
  destruct (comprehension text segments) as [parts|exc]; [|reflexivity].
  destruct (JSONResponse _) as [resp|exc]; reflexivity.
Qed.

(** Rendering the two documents of the service. *)
Lemma JSONResponse_transcription (t l : str) :
  JSONResponse [(lit "text", JStr t); (lit "language", JStr l)]
  = if encodable t && encodable l
    then Return {| status_code := 200;
                   body := Json [(lit "text", JStr t); (lit "language", JStr l)] |}
    else Raise (mkException (lit "UnicodeEncodeError") (lit "surrogates not allowed")).
Proof.
  unfold JSONResponse, JSONResponse_with, renderable.
  cbn [forallb fst snd].
  change (encodable (lit "text")) with true.
  change (encodable (lit "language")) with true.
  cbn [andb]. rewrite andb_true_r. reflexivity.
Qed.

Lemma JSONResponse_health (m d : str) :
  JSONResponse [(lit "ok", JBool true); (lit "model", JStr m); (lit "device", JStr d)]
  = if encodable m && encodable d
    then Return {| status_code := 200;
                   body := Json [(lit "ok", JBool true); (lit "model", JStr m);
                                 (lit "device", JStr d)] |}
    else Raise (mkException (lit "UnicodeEncodeError") (lit "surrogates not allowed")).
Proof.
  unfold JSONResponse, JSONResponse_with, renderable.
  cbn [forallb fst snd].
  change (encodable (lit "ok")) with true.
  change (encodable (lit "model")) with true.
  change (encodable (lit "device")) with true.
  cbn [andb]. rewrite andb_true_r. reflexivity.
Qed.

Lemma device_encodable (env : environ) : encodable (device env) = true.
Proof. unfold device. case_decide; reflexivity. Qed.

(** The answer to an upload that passes the size test, read off the
    engine's answer to the one call made. *)
Lemma post_long (audio : UploadFile) (w : World) :
  1500 <= len (read audio) ->
  app (POST_transcribe (Some audio)) w =
  let c := Transcribe (g_model (globals w)) (read audio) 1 true (Some (lit "en")) in
  let failed :=
    {| status_code := 422;
       body := Json [(lit "detail", JStr (lit "transcription failed"))] |} in
  (match WhisperModel_transcribe (calls w) c with
   | Raise _ => failed
   | Return (segments, info) =>
       match comprehension text segments with
       | Raise _ => failed
       | Return parts =>
           let t := strip (join (lit "") parts) in
           if encodable t && encodable (language info)
           then {| status_code := 200;
                   body := Json [(lit "text", JStr t);
                                 (lit "language", JStr (language info))] |}
           else failed
       end
   end,
   {| globals := globals w; calls := calls w ++ [c] |}).
Proof.
  intros Hlen. cbn zeta. unfold app. rewrite transcribe_long by exact Hlen.
  cbn zeta.
  destruct (WhisperModel_transcribe _ _) as [[segments info]|exc]; [|reflexivity].
  destruct (comprehension text segments) as [parts|exc]; [|reflexivity].
  rewrite JSONResponse_transcription.
  destruct (encodable _ && encodable _); reflexivity.
Qed.

Lemma health_run (w : World) :
  health w =
  (Return [(lit "ok", JBool true);
           (lit "model", JStr (g_WHISPER_MODEL (globals w)));
           (lit "device", JStr (g_device (globals w)))], w).
Proof. reflexivity. Qed.

(** No request changes the module globals. *)
Lemma app_globals (req : Request) (w : World) :
  globals (app req w).2 = globals w.
Proof.
  destruct req as [[audio|]|]; simpl; [|reflexivity|reflexivity].
  destruct (Z_lt_le_dec (len (read audio)) 1500) as [Hlt|Hge].
  - rewrite (transcribe_short _ _ Hlt). reflexivity.
  - rewrite (transcribe_long _ _ Hge). cbn zeta.
    destruct (WhisperModel_transcribe _ _) as [[segments info]|exc]; [|reflexivity].
    destruct (comprehension text segments); [|reflexivity].
    destruct (JSONResponse _); reflexivity.
Qed.

Lemma serve_globals (reqs : list Request) (w : World) :
  globals (serve reqs w).2 = globals w.
Proof.
  revert w. induction reqs as [|req rest IH]; intros w; simpl; [reflexivity|].
  pose proof (app_globals req w) as Hreq.
  destruct (app req w) as [resp w1]. simpl in Hreq.
  specialize (IH w1).
  destruct (serve rest w1) as [resps w2]. simpl in *. congruence.
Qed.

(** What a successful start leaves in the globals. *)
Lemma start_globals (env : environ) (w0 : World) :
  start env = Return w0 ->
  calls w0 = []
  /\ model env = Return (g_model (globals w0))
  /\ globals w0 = {| g_WHISPER_MODEL := WHISPER_MODEL env;
                     g_COMPUTE := COMPUTE env;
                     g_device := device env;
                     g_compute_type := compute_type env;
                     g_model := g_model (globals w0) |}.
Proof.
  unfold start, import_module.
  destruct (model env) as [m|e]; [|discriminate].
  intros [= <-]. simpl. repeat split; reflexivity.
Qed.

(** An answer of the engine is a complete recognition or a failure. *)
Lemma engine_answer_cases (r : result Exception (Segments * TranscriptionInfo)) :
  (exists segs info, r = Return (yields segs, info)) \/ (exists e, fails_with e r).
Proof.
  destruct r as [[g info]|e].
  - destruct (segments_cases g) as [(segs & ->)|(segs & e & ->)].
    + left. exists segs, info. reflexivity.
    + right. exists e. constructor.
  - right. exists e. constructor.
Qed.

(** The two error bodies of [POST /transcribe]. *)
Lemma post_short (audio : UploadFile) (w : World) :
  len (read audio) < 1500 ->
  app (POST_transcribe (Some audio)) w =
  ({| status_code := 400;
      body := Json [(lit "detail", JStr (lit "audio too short"))] |}, w).
Proof.
  intros Hlen. simpl. rewrite (transcribe_short _ _ Hlen). reflexivity.
Qed.

Lemma post_long_status (audio : UploadFile) (w : World) :
  1500 <= len (read audio) ->
  status_code (app (POST_transcribe (Some audio)) w).1 = 200
  \/ status_code (app (POST_transcribe (Some audio)) w).1 = 422.
Proof.
  intros Hlen. rewrite (post_long _ _ Hlen). cbn zeta.
  destruct (WhisperModel_transcribe _ _) as [[segments info]|exc]; [|right; reflexivity].
  destruct (comprehension text segments); [|right; reflexivity].
  destruct (encodable _ && encodable _); [left|right]; reflexivity.
Qed.

(** C1. A payload shorter than 1500 bytes (the empty one included) is
    answered with 400 and the detail "audio too short"; a payload of 1500
    bytes or more passes the size test, so its answer is never that
    rejection (it is 200 or 422). *)
Theorem transcribe_size_precondition (data : bytes) (w : World) :
  (len data < 1500 ->
     (app (POST_transcribe (Some (mkUploadFile data))) w).1
     = {| status_code := 400;
          body := Json [(lit "detail", JStr (lit "audio too short"))] |})
  /\ (1500 <= len data ->
       negb (truthy data) || (len data <? 1500) = false
       /\ (status_code (app (POST_transcribe (Some (mkUploadFile data))) w).1 = 200
           \/ status_code (app (POST_transcribe (Some (mkUploadFile data))) w).1 = 422)).
Proof.
  split.
  - intros Hlen. rewrite post_short; [reflexivity | exact Hlen].
  - intros Hlen. split.
    + apply not_true_is_false. rewrite size_check. lia.
    + apply post_long_status. exact Hlen.
Qed.

(** C2 (as the code has it). For a payload of at least 1500 bytes on
    which the engine returns its segments without raising, [text] is the
    segment texts concatenated in the order they were yielded, nothing
    put between them, stripped of the whitespace at both ends (a blank
    prefix and a blank suffix are cut, and the result neither starts nor
    ends with whitespace), and [language] is the language the engine
    reported.  The answer is 200 with these two fields when both can be
    encoded as UTF-8; when one of them cannot, building the response
    raises inside the [try] and the answer is the 422 "transcription
    failed". *)
Theorem transcribe_success (data : bytes) (w : World)
    (segs : list Segment) (info : TranscriptionInfo) :
  1500 <= len data ->
  WhisperModel_transcribe (calls w)
    (Transcribe (g_model (globals w)) data 1 true (Some (lit "en")))
  = Return (yields segs, info) ->
  let joined := concat (map text segs) in
  (app (POST_transcribe (Some (mkUploadFile data))) w).1
  = (if encodable (strip joined) && encodable (language info)
     then {| status_code := 200;
             body := Json [(lit "text", JStr (strip joined));
                           (lit "language", JStr (language info))] |}
     else {| status_code := 422;
             body := Json [(lit "detail", JStr (lit "transcription failed"))] |})
  /\ exists pre suf,
       joined = pre ++ strip joined ++ suf /\ blank pre /\ blank suf
       /\ (forall c, head (strip joined) = Some c -> isspace c = false)
       /\ (forall c, last (strip joined) = Some c -> isspace c = false).
Proof.
  intros Hlen Hrun joined. split.
  - rewrite post_long by exact Hlen.
    cbn zeta. simpl read. rewrite Hrun, comprehension_yields, join_empty.
    reflexivity.
  - apply strip_spec.
Qed.

(** C3. For a payload that passes the size test, an exception raised by
    the engine's call or while the segments are collected makes the
    handler raise the 422 [HTTPException] chained to it, and the answer
    is 422 with the fixed detail "transcription failed": the same
    response whatever the exception was. *)
Theorem transcribe_failure (audio : UploadFile) (w : World) (e : Exception) :
  1500 <= len (read audio) ->
  fails_with e
    (WhisperModel_transcribe (calls w)
       (Transcribe (g_model (globals w)) (read audio) 1 true (Some (lit "en")))) ->
  (transcribe audio w).1
  = Raise (mkHTTPException 422 (lit "transcription failed") (Some e))
  /\ (app (POST_transcribe (Some audio)) w).1
     = {| status_code := 422;
          body := Json [(lit "detail", JStr (lit "transcription failed"))] |}.
Proof.
  intros Hlen Hfail. simpl. rewrite transcribe_long by exact Hlen. cbn zeta.
  inversion Hfail as [Hr | segs info Hr].
  - split; reflexivity.
  - rewrite comprehension_fails. split; reflexivity.
Qed.

(** C4 (as the code has it). A request without the [audio] field never
    reaches the handler: the field is declared required, the framework
    answers 422 with a validation error that names the missing field, and
    the world is untouched.  The fixed 400 "audio too short" is the
    answer to an [audio] field that is present and empty. *)
Theorem missing_audio_is_validation_error (w : World) :
  app (POST_transcribe None) w
  = ({| status_code := 422;
        body := ValidationErrors [[lit "body"; lit "audio"]] |}, w)
  /\ app (POST_transcribe (Some (mkUploadFile []))) w
     = ({| status_code := 400;
           body := Json [(lit "detail", JStr (lit "audio too short"))] |}, w).
Proof.
  split; [reflexivity|].
  apply post_short. simpl. unfold len. simpl. lia.
Qed.

(** C5 (as the code has it). After a successful start and any sequence
    of requests, [health] returns (it does not raise) the dict
    [{ok: true, model: configured model size, device: resolved device}],
    and the answer is 200 with that body whenever the configured model
    size can be encoded as UTF-8.  When it cannot, serialising the dict
    fails and the answer is a 500. *)
Theorem health_always_ok (env : environ) (w0 : World) (reqs : list Request) :
  start env = Return w0 ->
  let w := (serve reqs w0).2 in
  (health w).1
  = Return [(lit "ok", JBool true);
            (lit "model", JStr (WHISPER_MODEL env));
            (lit "device", JStr (device env))]
  /\ (app GET_health w).1
     = (if encodable (WHISPER_MODEL env)
        then {| status_code := 200;
                body := Json [(lit "ok", JBool true);
                              (lit "model", JStr (WHISPER_MODEL env));
                              (lit "device", JStr (device env))] |}
        else {| status_code := 500;
                body := Text (lit "Internal Server Error") |}).
Proof.
  intros Hstart w.
  destruct (start_globals _ _ Hstart) as (_ & _ & Hg).
  assert (Hw : globals w = globals w0) by apply serve_globals.
  unfold app. rewrite health_run. cbn [fst]. rewrite Hw, Hg. cbn [g_WHISPER_MODEL g_device].
  split; [reflexivity|].
  unfold respond. rewrite JSONResponse_health, device_encodable, andb_true_r.
  destruct (encodable (WHISPER_MODEL env)); reflexivity.
Qed.

(** C7. The compute type is ["float16"] exactly when the resolved device
    is ["cuda"] and ["int8"] in every other case; the model is loaded
    with that device and compute type. *)
Theorem compute_type_selection (env : environ) :
  (compute_type env = lit "float16" <-> device env = lit "cuda")
  /\ (device env <> lit "cuda" -> compute_type env = lit "int8")
  /\ model env = WhisperModel_init (WHISPER_MODEL env) (device env) (compute_type env).
Proof.
  unfold compute_type. split; [|split; [|reflexivity]].
  - case_decide as Hd; split; try done.
  - intros Hne. case_decide; [contradiction | reflexivity].
Qed.

(** C8. For a payload that passes the size test the handler calls the
    engine exactly once: one call is added to those the engine had
    received, on the global model instance, with the payload,
    [beam_size=1], [vad_filter=True] and [language="en"]; and the answer
    sent is made from the engine's answer to that very call: the 422 when
    it fails, the stripped text and the language of the segments and info
    it returns otherwise. *)
Theorem transcribe_calls_engine_once (audio : UploadFile) (w : World) :
  1500 <= len (read audio) ->
  let c := Transcribe (g_model (globals w)) (read audio) 1 true (Some (lit "en")) in
  let answer := WhisperModel_transcribe (calls w) c in
  let sent := (app (POST_transcribe (Some audio)) w).1 in
  calls (app (POST_transcribe (Some audio)) w).2 = calls w ++ [c]
  /\ (forall e, fails_with e answer ->
        sent = {| status_code := 422;
                  body := Json [(lit "detail", JStr (lit "transcription failed"))] |})
  /\ (forall segs info, answer = Return (yields segs, info) ->
        encodable (strip (concat (map text segs))) = true ->
        encodable (language info) = true ->
        sent = {| status_code := 200;
                  body := Json [(lit "text", JStr (strip (concat (map text segs))));
                                (lit "language", JStr (language info))] |}).
Proof.
  intros Hlen c answer sent. subst sent answer c.
  rewrite post_long by exact Hlen. cbn zeta. cbn [fst snd calls].
  split; [reflexivity|]. split.
  - intros e Hfail. inversion Hfail as [Hr | segs info Hr]; [reflexivity|].
    rewrite comprehension_fails. reflexivity.
  - intros segs info Hrun Ht Hl.
    rewrite Hrun, comprehension_yields, join_empty, Ht, Hl. reflexivity.
Qed.

(** C9. The globals (model size, compute preference, device, compute
    type, model instance) are what the start resolved from the
    environment, and serving requests leaves them as they were: after any
    sequence of requests, and across one more request of either kind. *)
Theorem globals_never_mutated (env : environ) (w0 : World)
    (reqs : list Request) (req : Request) :
  start env = Return w0 ->
  let w := (serve reqs w0).2 in
  globals w = globals w0
  /\ globals (app req w).2 = globals w
  /\ g_WHISPER_MODEL (globals w) = WHISPER_MODEL env
  /\ g_device (globals w) = device env
  /\ g_compute_type (globals w) = compute_type env
  /\ model env = Return (g_model (globals w)).
Proof.
  intros Hstart w.
  destruct (start_globals _ _ Hstart) as (_ & Hm & Hg).
  assert (Hw : globals w = globals w0) by apply serve_globals.
  rewrite app_globals, Hw. repeat split; try exact Hm; rewrite Hg; reflexivity.
Qed.

(** C10. For a payload shorter than 1500 bytes the handler raises the
    400 rejection with the world as it found it: the engine has received
    no call. *)
Theorem short_audio_never_reaches_engine (audio : UploadFile) (w : World) :
  len (read audio) < 1500 ->
  transcribe audio w
  = (Raise (mkHTTPException 400 (lit "audio too short") None), w)
  /\ calls (app (POST_transcribe (Some audio)) w).2 = calls w.
Proof.
  intros Hlen. split.
  - apply transcribe_short. exact Hlen.
  - rewrite post_short by exact Hlen. reflexivity.
Qed.

End Properties.

(** C6. The model size is the value of [WHISPER_MODEL], or ["base"] when
    the variable is unset; the compute preference defaults to ["auto"];
    the device is ["cuda"] exactly when [WHISPER_COMPUTE] is set to
    ["cuda"], and ["auto"] for every other value and when unset. *)
Theorem configuration_resolution (env : environ) :
  WHISPER_MODEL env = default (lit "base") (env !! lit "WHISPER_MODEL")
  /\ COMPUTE env = default (lit "auto") (env !! lit "WHISPER_COMPUTE")
  /\ (device env = lit "cuda" <-> env !! lit "WHISPER_COMPUTE" = Some (lit "cuda"))
  /\ (env !! lit "WHISPER_COMPUTE" <> Some (lit "cuda") -> device env = lit "auto")
  /\ device (<[lit "WHISPER_COMPUTE" := lit "cuda"]> env) = lit "cuda"
  /\ (forall v, v <> lit "cuda" ->
        device (<[lit "WHISPER_COMPUTE" := v]> env) = lit "auto")
  /\ device (delete (lit "WHISPER_COMPUTE") env) = lit "auto".
Proof.
  assert (Hdev : forall e : environ,
    device e = lit "cuda" <-> e !! lit "WHISPER_COMPUTE" = Some (lit "cuda")).
  { intros e. unfold device, COMPUTE, getenv.
    destruct (e !! lit "WHISPER_COMPUTE") as [v|] eqn:Hv.
    - case_decide as Hc; split; try done.
      + intros _. by rewrite Hc.
      + intros [= ->]. done.
    - case_decide as Hc; split; done. }
  assert (Hauto : forall e : environ,
    e !! lit "WHISPER_COMPUTE" <> Some (lit "cuda") -> device e = lit "auto").
  { intros e Hne. pose proof (Hdev e) as He. unfold device in *.
    case_decide; [|reflexivity]. exfalso. apply Hne, He. reflexivity. }
  split.
  { unfold WHISPER_MODEL, getenv.
    destruct (env !! lit "WHISPER_MODEL"); reflexivity. }
  split.
  { unfold COMPUTE, getenv.
    destruct (env !! lit "WHISPER_COMPUTE"); reflexivity. }
  split; [apply Hdev|].
  split; [apply Hauto|].
  split; [apply Hdev, lookup_insert_eq|].
  split.
  - intros v Hv. apply Hauto. rewrite lookup_insert_eq. congruence.
  - apply Hauto. rewrite lookup_delete_eq. discriminate.
Qed.

(** ** The properties on the demonstration engine *)

Lemma transcribe_size_precondition_witness :
  (len Demo.short_clip < 1500
   /\ (app (engine := Demo.engine)
         (POST_transcribe (Some (mkUploadFile Demo.short_clip))) Demo.world0).1
      = {| status_code := 400;
           body := Json [(lit "detail", JStr (lit "audio too short"))] |})
  /\ (1500 <= len (Demo.clip x52)
      /\ status_code (app (engine := Demo.engine)
           (POST_transcribe (Some (mkUploadFile (Demo.clip x52)))) Demo.world0).1 = 200).
Proof.
  assert (Hshort : len Demo.short_clip < 1500) by (vm_compute; reflexivity).
  assert (Hlong : 1500 <= len (Demo.clip x52)) by (vm_compute; discriminate).
  split; split; try assumption.
  - exact (proj1 (transcribe_size_precondition (engine := Demo.engine)
                    Demo.short_clip Demo.world0) Hshort).
  - destruct (proj2 (transcribe_size_precondition (engine := Demo.engine)
                       (Demo.clip x52) Demo.world0) Hlong) as [_ [H200|H422]].
    + exact H200.
    + vm_compute in H422. discriminate H422.
Defined.

Lemma transcribe_success_witness :
  1500 <= len (Demo.clip x52)
  /\ WhisperModel_transcribe (Engine := Demo.engine) (calls Demo.world0)
       (Transcribe (g_model (globals Demo.world0)) (Demo.clip x52) 1 true
          (Some (lit "en")))
     = Return (yields [mkSegment (lit " Hello,"); mkSegment (lit " world. ")],
               mkInfo (lit "en"))
  /\ (app (engine := Demo.engine)
        (POST_transcribe (Some (mkUploadFile (Demo.clip x52)))) Demo.world0).1
     = {| status_code := 200;
          body := Json [(lit "text", JStr (lit "Hello, world."));
                        (lit "language", JStr (lit "en"))] |}.
Proof.
  assert (Hlong : 1500 <= len (Demo.clip x52)) by (vm_compute; discriminate).
  split; [exact Hlong|]. split; [reflexivity|].
  exact (proj1 (transcribe_success (engine := Demo.engine)
                  (Demo.clip x52) Demo.world0
                  [mkSegment (lit " Hello,"); mkSegment (lit " world. ")]
                  (mkInfo (lit "en")) Hlong eq_refl)).
Defined.

Lemma transcribe_failure_witness :
  1500 <= len (read (mkUploadFile (Demo.clip x01)))
  /\ fails_with (mkException (lit "RuntimeError") (lit "decoder state lost"))
       (WhisperModel_transcribe (Engine := Demo.engine) (calls Demo.world0)
          (Transcribe (g_model (globals Demo.world0))
             (read (mkUploadFile (Demo.clip x01))) 1 true (Some (lit "en"))))
  /\ (app (engine := Demo.engine)
        (POST_transcribe (Some (mkUploadFile (Demo.clip x01)))) Demo.world0).1
     = {| status_code := 422;
          body := Json [(lit "detail", JStr (lit "transcription failed"))] |}.
Proof.
  assert (Hlong : 1500 <= len (read (mkUploadFile (Demo.clip x01))))
    by (vm_compute; discriminate).
  assert (Hfail :
    fails_with (mkException (lit "RuntimeError") (lit "decoder state lost"))
      (WhisperModel_transcribe (Engine := Demo.engine) (calls Demo.world0)
         (Transcribe (g_model (globals Demo.world0))
            (read (mkUploadFile (Demo.clip x01))) 1 true (Some (lit "en")))))
    by exact (fails_in_iteration _ [mkSegment (lit " half")] (mkInfo (lit "en"))).
  split; [exact Hlong|]. split; [exact Hfail|].
  exact (proj2 (transcribe_failure (engine := Demo.engine)
                  (mkUploadFile (Demo.clip x01)) Demo.world0 _ Hlong Hfail)).
Defined.

(** C4 as the specification words it fails: without the [audio] field the
    answer is not the 400 "audio too short" response. *)
Lemma missing_audio_is_not_400 :
  (app (engine := Demo.engine) (POST_transcribe None) Demo.world0).1
  <> {| status_code := 400;
        body := Json [(lit "detail", JStr (lit "audio too short"))] |}.
Proof. simpl. discriminate. Qed.

(** C2 as the specification words it fails: the engine processes the
    payload and returns one segment, but its text holds a lone surrogate
    and the answer is not the 200 with that text. *)
Lemma transcribe_unencodable_text_is_not_200 :
  1500 <= len (Demo.clip x52)
  /\ WhisperModel_transcribe (Engine := Garbled.engine) (calls Garbled.world0)
       (Transcribe (g_model (globals Garbled.world0)) (Demo.clip x52) 1 true
          (Some (lit "en")))
     = Return (yields [mkSegment [0xD800%N]], mkInfo (lit "en"))
  /\ (app (engine := Garbled.engine)
        (POST_transcribe (Some (mkUploadFile (Demo.clip x52)))) Garbled.world0).1
     <> {| status_code := 200;
           body := Json [(lit "text",
                          JStr (strip (concat (map text [mkSegment [0xD800%N]]))));
                         (lit "language", JStr (language (mkInfo (lit "en"))))] |}.
Proof.
  split; [vm_compute; discriminate|]. split; [reflexivity|].
  vm_compute. discriminate.
Qed.

(** C5 as the specification words it fails: the process starts with a
    model name that is not valid UTF-8, and the answer of [GET /health]
    is not the 200 with the configuration. *)
Lemma health_unencodable_model_is_not_200 :
  match start (engine := Demo.engine) Garbled.env with
  | Return w0 =>
      (app (engine := Demo.engine) GET_health w0).1
      <> {| status_code := 200;
            body := Json [(lit "ok", JBool true);
                          (lit "model", JStr (WHISPER_MODEL Garbled.env));
                          (lit "device", JStr (device Garbled.env))] |}
  | Raise _ => False
  end.
Proof. vm_compute. discriminate. Qed.

Lemma health_always_ok_witness :
  start (engine := Demo.engine) ∅ = Return Demo.world0
  /\ (app (engine := Demo.engine) GET_health
        (serve [POST_transcribe (Some (mkUploadFile (Demo.clip x01))); GET_health;
                POST_transcribe None]
           Demo.world0).2).1
     = {| status_code := 200;
          body := Json [(lit "ok", JBool true);
                        (lit "model", JStr (lit "base"));
                        (lit "device", JStr (lit "auto"))] |}.
Proof.
  assert (Hstart : start (engine := Demo.engine) ∅ = Return Demo.world0)
    by (vm_compute; reflexivity).
  split; [exact Hstart|].
  exact (proj2 (health_always_ok (engine := Demo.engine) ∅ Demo.world0
                  [POST_transcribe (Some (mkUploadFile (Demo.clip x01))); GET_health;
                   POST_transcribe None]
                  Hstart)).
Defined.

Lemma configuration_resolution_witness :
  (Demo.env_cuda !! lit "WHISPER_COMPUTE" = Some (lit "cuda")
   /\ device Demo.env_cuda = lit "cuda")
  /\ (Demo.env_cpu !! lit "WHISPER_COMPUTE" <> Some (lit "cuda")
      /\ device Demo.env_cpu = lit "auto")
  /\ ((∅ : environ) !! lit "WHISPER_COMPUTE" <> Some (lit "cuda")
      /\ device ∅ = lit "auto").
Proof.
  assert (Hcuda : Demo.env_cuda !! lit "WHISPER_COMPUTE" = Some (lit "cuda"))
    by (vm_compute; reflexivity).
  assert (Hcpu : Demo.env_cpu !! lit "WHISPER_COMPUTE" <> Some (lit "cuda"))
    by (vm_compute; discriminate).
  assert (Hunset : (∅ : environ) !! lit "WHISPER_COMPUTE" <> Some (lit "cuda"))
    by (vm_compute; discriminate).
  destruct (configuration_resolution Demo.env_cuda) as (_ & _ & Hiff & _).
  destruct (configuration_resolution Demo.env_cpu) as (_ & _ & _ & Hother & _).
  destruct (configuration_resolution ∅) as (_ & _ & _ & Hnone & _).
  split; [split; [exact Hcuda | exact (proj2 Hiff Hcuda)]|].
  split; [split; [exact Hcpu | exact (Hother Hcpu)]|].
  split; [exact Hunset | exact (Hnone Hunset)].
Defined.

Lemma compute_type_selection_witness :
  (device Demo.env_cuda = lit "cuda"
   /\ compute_type Demo.env_cuda = lit "float16")
  /\ (device Demo.env_cpu <> lit "cuda"
      /\ compute_type Demo.env_cpu = lit "int8").
Proof.
  assert (Hcuda : device Demo.env_cuda = lit "cuda") by (vm_compute; reflexivity).
  assert (Hcpu : device Demo.env_cpu <> lit "cuda") by (vm_compute; discriminate).
  destruct (compute_type_selection (engine := Demo.engine) Demo.env_cuda)
    as (Hiff & _ & _).
  destruct (compute_type_selection (engine := Demo.engine) Demo.env_cpu)
    as (_ & Hother & _).
  split; [split; [exact Hcuda | exact (proj2 Hiff Hcuda)]|].
  split; [exact Hcpu | exact (Hother Hcpu)].
Defined.

Lemma transcribe_calls_engine_once_witness :
  1500 <= len (read (mkUploadFile (Demo.clip x00)))
  /\ calls (app (engine := Demo.engine)
              (POST_transcribe (Some (mkUploadFile (Demo.clip x00)))) Demo.world0).2
     = [Transcribe (lit "base", lit "auto", lit "int8") (Demo.clip x00) 1 true
          (Some (lit "en"))]
  /\ (app (engine := Demo.engine)
        (POST_transcribe (Some (mkUploadFile (Demo.clip x00)))) Demo.world0).1
     = {| status_code := 422;
          body := Json [(lit "detail", JStr (lit "transcription failed"))] |}.
Proof.
  assert (Hlong : 1500 <= len (read (mkUploadFile (Demo.clip x00))))
    by (vm_compute; discriminate).
  pose proof (transcribe_calls_engine_once (engine := Demo.engine)
                (mkUploadFile (Demo.clip x00)) Demo.world0 Hlong) as Hcall.
  cbv zeta in Hcall. destruct Hcall as (Hcalls & Hfail & _).
  split; [exact Hlong|]. split; [exact Hcalls|].
  exact (Hfail _ (fails_at_call _)).
Defined.

Lemma globals_never_mutated_witness :
  start (engine := Demo.engine) ∅ = Return Demo.world0
  /\ globals (serve (engine := Demo.engine)
                [POST_transcribe (Some (mkUploadFile (Demo.clip x52)));
                 POST_transcribe (Some (mkUploadFile Demo.short_clip)); GET_health]
                Demo.world0).2
     = globals Demo.world0.
Proof.
  assert (Hstart : start (engine := Demo.engine) ∅ = Return Demo.world0)
    by (vm_compute; reflexivity).
  split; [exact Hstart|].
  exact (proj1 (globals_never_mutated (engine := Demo.engine) ∅ Demo.world0
                  [POST_transcribe (Some (mkUploadFile (Demo.clip x52)));
                   POST_transcribe (Some (mkUploadFile Demo.short_clip)); GET_health]
                  GET_health Hstart)).
Defined.

Lemma short_audio_never_reaches_engine_witness :
  len (read (mkUploadFile Demo.short_clip)) < 1500
  /\ calls (app (engine := Demo.engine)
              (POST_transcribe (Some (mkUploadFile Demo.short_clip))) Demo.world0).2
     = [].
Proof.
  assert (Hshort : len (read (mkUploadFile Demo.short_clip)) < 1500)
    by (vm_compute; reflexivity).
  split; [exact Hshort|].
  exact (proj2 (short_audio_never_reaches_engine (engine := Demo.engine)
                  (mkUploadFile Demo.short_clip) Demo.world0 Hshort)).
Defined.

(** * Further properties *)

Import Traffic.

(** ** More on [strip] *)

Lemma lstrip_blank_app (pre t : str) :
  blank pre -> lstrip (pre ++ t) = lstrip t.
Proof.
  induction 1 as [|c pre Hc _ IH]; simpl; [reflexivity|].
  rewrite Hc. exact IH.
Qed.

Lemma lstrip_fixed (t : str) :
  (forall c, head t = Some c -> isspace c = false) -> lstrip t = t.
Proof.
  destruct t as [|c r]; simpl; [reflexivity|].
  intros Hhead. rewrite (Hhead c eq_refl). reflexivity.
Qed.

Lemma rstrip_app_blank (t suf : str) :
  blank suf -> rstrip (t ++ suf) = rstrip t.
Proof.
  intros Hsuf. unfold rstrip. rewrite reverse_app.
  rewrite lstrip_blank_app; [reflexivity|].
  apply Forall_reverse. exact Hsuf.
Qed.

Lemma rstrip_fixed (t : str) :
  (forall c, last t = Some c -> isspace c = false) -> rstrip t = t.
Proof.
  intros Hlast. unfold rstrip. rewrite lstrip_fixed.
  - apply reverse_involutive.
  - intros c. rewrite head_reverse. apply Hlast.
Qed.

(** X5. [strip] finds the core of a string: when a string is a blank
    prefix, a core that neither starts nor ends with whitespace, and a
    blank suffix, its strip is that core. *)
Theorem strip_core (pre core suf : str) :
  blank pre -> blank suf ->
  (forall c, head core = Some c -> isspace c = false) ->
  (forall c, last core = Some c -> isspace c = false) ->
  strip (pre ++ core ++ suf) = core.
Proof.
  intros Hpre Hsuf Hhead Hlast. unfold strip.
  rewrite lstrip_blank_app by exact Hpre.
  destruct core as [|c r].
  - simpl. rewrite <- (app_nil_r suf), lstrip_blank_app by exact Hsuf.
    reflexivity.
  - rewrite lstrip_fixed.
    + rewrite rstrip_app_blank by exact Hsuf. apply rstrip_fixed, Hlast.
    + simpl. intros d [= <-]. apply Hhead. reflexivity.
Qed.

(** X6. Stripping twice is stripping once. *)
Theorem strip_idempotent (s : str) : strip (strip s) = strip s.
Proof.
  destruct (strip_spec s) as (_ & _ & _ & _ & _ & Hhead & Hlast).
  unfold strip at 1.
  rewrite lstrip_fixed by exact Hhead.
  apply rstrip_fixed, Hlast.
Qed.

(** X7. The strip of a string is empty exactly when the string is made of
    whitespace only (the empty string included). *)
Theorem strip_empty_iff_blank (s : str) : strip s = [] <-> blank s.
Proof.
  split.
  - intros Hs. destruct (strip_spec s) as (pre & suf & Heq & Hpre & Hsuf & _).
    rewrite Hs in Heq. rewrite Heq. simpl. apply Forall_app. split; assumption.
  - intros Hs. unfold strip.
    rewrite <- (app_nil_r s), lstrip_blank_app by exact Hs. reflexivity.
Qed.

(** ** More on the configuration *)

(** X2. Device and compute type come in two combinations only: ["cuda"]
    with ["float16"], or ["auto"] with ["int8"]. *)
Theorem device_compute_type_pairs (env : environ) :
  (device env = lit "cuda" /\ compute_type env = lit "float16")
  \/ (device env = lit "auto" /\ compute_type env = lit "int8").
Proof.
  unfold compute_type, device.
  destruct (decide (COMPUTE env = lit "cuda")) as [Hc|Hc].
  - left. split; [reflexivity|]. case_decide; [reflexivity | contradiction].
  - right. split; [reflexivity|]. case_decide as Hd; [discriminate Hd | reflexivity].
Qed.

(** X3. The configuration reads two variables only: setting or unsetting
    any other variable changes none of the four values. *)
Theorem configuration_ignores_other_variables (env : environ) (k v : str) :
  k <> lit "WHISPER_MODEL" -> k <> lit "WHISPER_COMPUTE" ->
  (WHISPER_MODEL (<[k := v]> env) = WHISPER_MODEL env
   /\ COMPUTE (<[k := v]> env) = COMPUTE env
   /\ device (<[k := v]> env) = device env
   /\ compute_type (<[k := v]> env) = compute_type env)
  /\ (WHISPER_MODEL (delete k env) = WHISPER_MODEL env
      /\ COMPUTE (delete k env) = COMPUTE env
      /\ device (delete k env) = device env
      /\ compute_type (delete k env) = compute_type env).
Proof.
  intros Hm Hc.
  unfold compute_type, device, COMPUTE, WHISPER_MODEL, getenv.
  rewrite !lookup_insert_ne, !lookup_delete_ne by assumption.
  repeat split.
Qed.

(** X4. A variable that is set is used as it is, the empty string
    included; the defaults ["base"] and ["auto"] are for unset variables
    only. *)
Theorem configuration_set_and_unset (env : environ) (v : str) :
  WHISPER_MODEL (<[lit "WHISPER_MODEL" := v]> env) = v
  /\ COMPUTE (<[lit "WHISPER_COMPUTE" := v]> env) = v
  /\ WHISPER_MODEL (delete (lit "WHISPER_MODEL") env) = lit "base"
  /\ COMPUTE (delete (lit "WHISPER_COMPUTE") env) = lit "auto".
Proof.
  unfold WHISPER_MODEL, COMPUTE, getenv.
  rewrite !lookup_insert_eq, !lookup_delete_eq. repeat split.
Qed.

(** ** More on the segments generator *)

(** X14. The list comprehension is all or nothing: it returns exactly when
    the generator runs to its end, with one value per segment in the
    order yielded, and it raises exactly when the generator raises, with
    the generator's exception and none of the values collected so far. *)
Theorem comprehension_all_or_nothing {A} (f : Segment -> A) (g : Segments) :
  (forall l, comprehension f g = Return l <->
             exists segs, g = yields segs /\ l = map f segs)
  /\ (forall e, comprehension f g = Raise e <->
                exists segs, g = yields_then_fails segs e).
Proof.
  split.
  - intros l. split.
    + destruct (segments_cases g) as [(segs & ->)|(segs & e & ->)].
      * rewrite comprehension_yields. intros [= <-]. exists segs. split; reflexivity.
      * rewrite comprehension_fails. discriminate.
    + intros (segs & -> & ->). apply comprehension_yields.
  - intros e. split.
    + destruct (segments_cases g) as [(segs & ->)|(segs & e' & ->)].
      * rewrite comprehension_yields. discriminate.
      * rewrite comprehension_fails. intros [= <-]. exists segs. reflexivity.
    + intros (segs & ->). apply comprehension_fails.
Qed.

(** ** More on the handlers *)

Section MoreProperties.
Context {engine : Engine}.

Lemma blank_concat (parts : list str) :
  Forall (fun p => blank p) parts -> blank (concat parts).
Proof.
  induction 1 as [|p rest Hp _ IH]; simpl; [constructor|].
  apply Forall_app. split; assumption.
Qed.

(** X8. Audio in which the engine recognises nothing is not an error: when
    the engine yields no segment, or only segments whose text is
    whitespace, and reports a language that can be encoded, the answer is
    200 with the empty text. *)
Theorem transcribe_silence (audio : UploadFile) (w : World)
    (segs : list Segment) (info : TranscriptionInfo) :
  1500 <= len (read audio) ->
  WhisperModel_transcribe (calls w)
    (Transcribe (g_model (globals w)) (read audio) 1 true (Some (lit "en")))
  = Return (yields segs, info) ->
  Forall (fun seg => blank (text seg)) segs ->
  encodable (language info) = true ->
  (app (POST_transcribe (Some audio)) w).1
  = {| status_code := 200;
       body := Json [(lit "text", JStr []);
                     (lit "language", JStr (language info))] |}.
Proof.
  intros Hlen Hrun Hblank Hl. rewrite post_long by exact Hlen.
  cbn zeta. cbn [fst]. rewrite Hrun, comprehension_yields, join_empty.
  assert (Hs : blank (concat (map text segs))).
  { apply blank_concat. apply Forall_map. exact Hblank. }
  destruct (strip_spec (concat (map text segs)))
    as (pre & suf & Heq & _ & _ & Hhead & _).
  destruct (strip (concat (map text segs))) as [|c r] eqn:Hstrip.
  - rewrite Hl. reflexivity.
  - exfalso. specialize (Hhead c eq_refl).
    rewrite Heq in Hs. apply Forall_app in Hs as [_ Hs].
    apply Forall_app in Hs as [Hs _]. inversion Hs as [|? ? Hc _]. congruence.
Qed.

(** X9. [POST /transcribe] answers 200 only for a completed recognition
    that can be sent: the status is 200 exactly when the payload has at
    least 1500 bytes, the engine's call returns segments that run to
    their end, and the stripped text and the language can be encoded. *)
Theorem transcribe_200_iff (audio : UploadFile) (w : World) :
  status_code (app (POST_transcribe (Some audio)) w).1 = 200
  <-> 1500 <= len (read audio)
      /\ exists segs info,
           WhisperModel_transcribe (calls w)
             (Transcribe (g_model (globals w)) (read audio) 1 true (Some (lit "en")))
           = Return (yields segs, info)
           /\ encodable (strip (concat (map text segs))) = true
           /\ encodable (language info) = true.
Proof.
  split.
  - destruct (Z_lt_le_dec (len (read audio)) 1500) as [Hlt|Hge].
    + rewrite post_short by exact Hlt. simpl. discriminate.
    + rewrite post_long by exact Hge. cbn zeta. cbn [fst].
      destruct (WhisperModel_transcribe _ _) as [[g info]|exc]; [|simpl; discriminate].
      destruct (segments_cases g) as [(segs & ->)|(segs & e & ->)].
      * rewrite comprehension_yields, join_empty.
        destruct (encodable (strip _)) eqn:Ht; [|simpl; discriminate].
        destruct (encodable (language info)) eqn:Hl; [|simpl; discriminate].
        intros _. split; [exact Hge|]. exists segs, info. repeat split; assumption.
      * rewrite comprehension_fails. simpl. discriminate.
  - intros (Hge & segs & info & Hrun & Ht & Hl).
    rewrite post_long by exact Hge. cbn zeta. cbn [fst].
    rewrite Hrun, comprehension_yields, join_empty, Ht, Hl. reflexivity.
Qed.

(** X10. [POST /transcribe] never answers with a server error: whatever
    the request, the world and the engine, its status is 200, 400 or 422.
    [GET /health] answers 200 when the model size and the device in the
    globals can be encoded, and 500 otherwise. *)
Theorem response_status (req : Request) (w : World) :
  match req with
  | POST_transcribe _ =>
      status_code (app req w).1 = 200
      \/ status_code (app req w).1 = 400
      \/ status_code (app req w).1 = 422
  | GET_health =>
      status_code (app req w).1
      = if encodable (g_WHISPER_MODEL (globals w)) && encodable (g_device (globals w))
        then 200 else 500
  end.
Proof.
  destruct req as [[audio|]|].
  - destruct (Z_lt_le_dec (len (read audio)) 1500) as [Hlt|Hge].
    + rewrite post_short by exact Hlt. right. left. reflexivity.
    + destruct (post_long_status audio w Hge) as [H|H]; [left|right; right]; exact H.
  - right. right. reflexivity.
  - unfold app. rewrite health_run. unfold respond. rewrite JSONResponse_health.
    destruct (encodable _ && encodable _); reflexivity.
Qed.

(** X13. A health check, an upload without its [audio] field and an upload
    under the size floor leave the whole world as it was: globals and the
    calls received by the engine. *)
Theorem inert_request_leaves_world (req : Request) (w : World) :
  inert req = true -> (app req w).2 = w.
Proof.
  destruct req as [[audio|]|]; simpl inert; intros Hin; try reflexivity.
  apply Z.ltb_lt in Hin. rewrite post_short by exact Hin. reflexivity.
Qed.

Lemma app_calls (req : Request) (w : World) :
  calls (app req w).2 = calls w ++ engine_calls (g_model (globals w)) [req].
Proof.
  destruct req as [[audio|]|]; simpl engine_calls;
    try (simpl; symmetry; apply app_nil_r).
  destruct (Z.ltb_spec (len (read audio)) 1500) as [Hlt|Hge].
  - rewrite post_short by exact Hlt. simpl. symmetry. apply app_nil_r.
  - rewrite post_long by exact Hge. reflexivity.
Qed.

Lemma engine_calls_cons (m : WhisperModel) (req : Request) (rest : list Request) :
  engine_calls m (req :: rest) = engine_calls m [req] ++ engine_calls m rest.
Proof.
  destruct req as [[audio|]|]; simpl; try reflexivity.
  destruct (len (read audio) <? 1500); reflexivity.
Qed.

Lemma serve_calls_log (reqs : list Request) (w : World) :
  calls (serve reqs w).2 = calls w ++ engine_calls (g_model (globals w)) reqs.
Proof.
  revert w. induction reqs as [|req rest IH]; intros w.
  - simpl. symmetry. apply app_nil_r.
  - rewrite engine_calls_cons. simpl serve.
    pose proof (app_calls req w) as Hc. pose proof (app_globals req w) as Hg.
    destruct (app req w) as [resp w1]. simpl in Hc, Hg.
    specialize (IH w1).
    destruct (serve rest w1) as [resps w2]. simpl in IH |- *.
    rewrite IH, Hc, Hg, app_assoc. reflexivity.
Qed.

(** X11. Over a sequence of requests the engine receives one call per
    upload that passes the size test, in request order and on the global
    model instance, and nothing for the other requests; calls received
    earlier are kept.  That list is what the engine answers the next
    upload from, and the answer sent is made from the engine's answer:
    the 422 when it fails, the stripped text and the language
    otherwise. *)
Theorem serve_calls (reqs : list Request) (w : World) (audio : UploadFile) :
  1500 <= len (read audio) ->
  let m := g_model (globals w) in
  let history := calls w ++ engine_calls m reqs in
  let answer :=
    WhisperModel_transcribe history
      (Transcribe m (read audio) 1 true (Some (lit "en"))) in
  let sent := (app (POST_transcribe (Some audio)) (serve reqs w).2).1 in
  calls (serve reqs w).2 = history
  /\ (forall e, fails_with e answer ->
        sent = {| status_code := 422;
                  body := Json [(lit "detail", JStr (lit "transcription failed"))] |})
  /\ (forall segs info, answer = Return (yields segs, info) ->
        encodable (strip (concat (map text segs))) = true ->
        encodable (language info) = true ->
        sent = {| status_code := 200;
                  body := Json [(lit "text", JStr (strip (concat (map text segs))));
                                (lit "language", JStr (language info))] |}).
Proof.
  intros Hlen m history answer sent. subst sent answer history m.
  rewrite post_long by exact Hlen. cbn zeta. cbn [fst].
  rewrite serve_calls_log, serve_globals.
  split; [reflexivity|]. split.
  - intros e Hfail. inversion Hfail as [Hr | segs info Hr]; [reflexivity|].
    rewrite comprehension_fails. reflexivity.
  - intros segs info Hrun Ht Hl.
    rewrite Hrun, comprehension_yields, join_empty, Ht, Hl. reflexivity.
Qed.

Lemma app_response_history_free (req : Request) (w w' : World) :
  history_free -> globals w = globals w' -> (app req w).1 = (app req w').1.
Proof.
  intros Hfree Hg. destruct req as [[audio|]|].
  - destruct (Z_lt_le_dec (len (read audio)) 1500) as [Hlt|Hge].
    + rewrite !post_short by exact Hlt. reflexivity.
    + rewrite !post_long by exact Hge. cbn zeta. cbn [fst].
      rewrite Hg, (Hfree (calls w) (calls w')). reflexivity.
  - reflexivity.
  - unfold app. rewrite !health_run. simpl. rewrite Hg. reflexivity.
Qed.

(** X12. With an engine whose answers do not depend on earlier calls,
    requests do not influence each other: each answer in a sequence is
    the answer the request would get alone. *)
Theorem serve_requests_independent (reqs : list Request) (w : World) :
  history_free ->
  (serve reqs w).1 = map (fun req => (app req w).1) reqs.
Proof.
  intros Hfree.
  assert (Hgen : forall w1, globals w1 = globals w ->
            (serve reqs w1).1 = map (fun req => (app req w).1) reqs).
  { induction reqs as [|req rest IH]; intros w1 Hg; [reflexivity|].
    simpl serve.
    pose proof (app_response_history_free req w1 w Hfree Hg) as Hr.
    pose proof (app_globals req w1) as Hg1.
    destruct (app req w1) as [resp w2]. simpl in Hr, Hg1.
    specialize (IH w2 (eq_trans Hg1 Hg)).
    destruct (serve rest w2) as [resps w3]. simpl in IH |- *.
    rewrite Hr, IH. reflexivity. }
  apply Hgen. reflexivity.
Qed.

End MoreProperties.

(** ** The further properties on concrete inputs *)

Lemma strip_core_witness :
  blank (lit "  ") /\ blank (lit " ")
  /\ (forall c, head (lit "a b") = Some c -> isspace c = false)
  /\ (forall c, last (lit "a b") = Some c -> isspace c = false)
  /\ strip (lit "  " ++ lit "a b" ++ lit " ") = lit "a b".
Proof.
  assert (Hpre : blank (lit "  ")) by (repeat constructor).
  assert (Hsuf : blank (lit " ")) by (repeat constructor).
  assert (Hhead : forall c, head (lit "a b") = Some c -> isspace c = false)
    by (intros c [= <-]; reflexivity).
  assert (Hlast : forall c, last (lit "a b") = Some c -> isspace c = false)
    by (intros c [= <-]; reflexivity).
  repeat (split; [assumption|]).
  exact (strip_core (lit "  ") (lit "a b") (lit " ") Hpre Hsuf Hhead Hlast).
Defined.

Lemma configuration_ignores_other_variables_witness :
  lit "HOME" <> lit "WHISPER_MODEL" /\ lit "HOME" <> lit "WHISPER_COMPUTE"
  /\ device (<[lit "HOME" := lit "/root"]> Demo.env_cuda) = device Demo.env_cuda
  /\ WHISPER_MODEL (delete (lit "HOME") Demo.env_cuda) = WHISPER_MODEL Demo.env_cuda.
Proof.
  assert (Hm : lit "HOME" <> lit "WHISPER_MODEL") by discriminate.
  assert (Hc : lit "HOME" <> lit "WHISPER_COMPUTE") by discriminate.
  destruct (configuration_ignores_other_variables Demo.env_cuda (lit "HOME")
              (lit "/root") Hm Hc) as ((_ & _ & Hdev & _) & (Hmodel & _)).
  repeat (split; [assumption|]). exact Hmodel.
Defined.

Lemma transcribe_silence_witness :
  1500 <= len (read (mkUploadFile (Demo.clip x52)))
  /\ Forall (fun seg => blank (text seg)) [mkSegment (lit "  "); mkSegment (lit "")]
  /\ encodable (language (mkInfo (lit "en"))) = true
  /\ (app (engine := Quiet.engine)
        (POST_transcribe (Some (mkUploadFile (Demo.clip x52)))) Quiet.world0).1
     = {| status_code := 200;
          body := Json [(lit "text", JStr []); (lit "language", JStr (lit "en"))] |}.
Proof.
  assert (Hlong : 1500 <= len (read (mkUploadFile (Demo.clip x52))))
    by (vm_compute; discriminate).
  assert (Hblank : Forall (fun seg => blank (text seg))
                     [mkSegment (lit "  "); mkSegment (lit "")])
    by (repeat constructor).
  assert (Hl : encodable (language (mkInfo (lit "en"))) = true) by reflexivity.
  repeat (split; [assumption|]).
  exact (transcribe_silence (engine := Quiet.engine)
           (mkUploadFile (Demo.clip x52)) Quiet.world0
           [mkSegment (lit "  "); mkSegment (lit "")] (mkInfo (lit "en"))
           Hlong eq_refl Hblank Hl).
Defined.

Lemma serve_calls_witness :
  1500 <= len (read (mkUploadFile (Demo.clip x00)))
  /\ calls (serve (engine := Demo.engine)
              [GET_health; POST_transcribe (Some (mkUploadFile Demo.short_clip));
               POST_transcribe (Some (mkUploadFile (Demo.clip x01)));
               POST_transcribe None]
              Demo.world0).2
     = [Transcribe (lit "base", lit "auto", lit "int8") (Demo.clip x01) 1 true
          (Some (lit "en"))]
  /\ (app (engine := Demo.engine)
        (POST_transcribe (Some (mkUploadFile (Demo.clip x00))))
        (serve (engine := Demo.engine)
           [GET_health; POST_transcribe (Some (mkUploadFile Demo.short_clip));
            POST_transcribe (Some (mkUploadFile (Demo.clip x01)));
            POST_transcribe None]
           Demo.world0).2).1
     = {| status_code := 422;
          body := Json [(lit "detail", JStr (lit "transcription failed"))] |}.
Proof.
  assert (Hlong : 1500 <= len (read (mkUploadFile (Demo.clip x00))))
    by (vm_compute; discriminate).
  pose proof (serve_calls (engine := Demo.engine)
                [GET_health; POST_transcribe (Some (mkUploadFile Demo.short_clip));
                 POST_transcribe (Some (mkUploadFile (Demo.clip x01)));
                 POST_transcribe None]
                Demo.world0 (mkUploadFile (Demo.clip x00)) Hlong) as Hserve.
  cbv zeta in Hserve. destruct Hserve as (Hcalls & Hfail & _).
  split; [exact Hlong|]. split; [exact Hcalls|].
  exact (Hfail _ (fails_at_call _)).
Defined.

Lemma inert_request_leaves_world_witness :
  inert (POST_transcribe (Some (mkUploadFile Demo.short_clip))) = true
  /\ (app (engine := Demo.engine)
        (POST_transcribe (Some (mkUploadFile Demo.short_clip))) Demo.world0).2
     = Demo.world0.
Proof.
  assert (Hin : inert (POST_transcribe (Some (mkUploadFile Demo.short_clip))) = true)
    by (vm_compute; reflexivity).
  split; [exact Hin|].
  exact (inert_request_leaves_world (engine := Demo.engine)
           (POST_transcribe (Some (mkUploadFile Demo.short_clip))) Demo.world0 Hin).
Defined.

Lemma serve_requests_independent_witness :
  history_free (engine := Demo.engine)
  /\ (serve (engine := Demo.engine)
        [POST_transcribe (Some (mkUploadFile (Demo.clip x00)));
         POST_transcribe (Some (mkUploadFile (Demo.clip x52)))]
        Demo.world0).1
     = [(app (engine := Demo.engine)
           (POST_transcribe (Some (mkUploadFile (Demo.clip x00)))) Demo.world0).1;
        (app (engine := Demo.engine)
           (POST_transcribe (Some (mkUploadFile (Demo.clip x52)))) Demo.world0).1].
Proof.
  assert (Hfree : history_free (engine := Demo.engine))
    by (intros h h' c; reflexivity).
  split; [exact Hfree|].
  exact (serve_requests_independent (engine := Demo.engine)
           [POST_transcribe (Some (mkUploadFile (Demo.clip x00)));
            POST_transcribe (Some (mkUploadFile (Demo.clip x52)))]
           Demo.world0 Hfree).
Defined.

Example serve_calls_example :
  calls (serve (engine := Demo.engine)
           [GET_health; POST_transcribe (Some (mkUploadFile Demo.short_clip));
            POST_transcribe (Some (mkUploadFile (Demo.clip x01)));
            POST_transcribe None;
            POST_transcribe (Some (mkUploadFile (Demo.clip x52)))]
           Demo.world0).2
  = [Transcribe (lit "base", lit "auto", lit "int8") (Demo.clip x01) 1 true
       (Some (lit "en"));
     Transcribe (lit "base", lit "auto", lit "int8") (Demo.clip x52) 1 true
       (Some (lit "en"))].
Proof. vm_compute. reflexivity. Qed.
